(** * VGG19 model factory (keras/applications/vgg19.py)

    A shallow embedding of the [VGG19] function.  The function is a
    straight-line composition of framework calls; it is embedded in a small
    state-and-error monad whose state is the chronological log of the calls
    made into the framework ([Input], layer calls, [Model], [get_file],
    [load_weights], [warnings.warn], [convert_all_kernels_in_model]).

    The collaborators imported by the file ([keras.backend], [keras.layers],
    [keras.models], [keras.utils]) are not part of it.  The ambient backend
    configuration and the path returned by [get_file] are parameters; the
    layer graph is a first-order term; calls into the framework are followed
    on their success path. *)

From Stdlib Require Import String Ascii List ZArith QArith Bool Sorted.
From Stdlib Require Import DecimalString.
Import ListNotations.
Local Open Scope Z_scope.
Local Open Scope string_scope.

(** ** Python values *)

(** Values a caller may pass for the [weights] selector.  None, strings and
    integers are hashable; a list is not. *)
#[warnings="-register-all"]
Inductive pyval : Type :=
| PyNone
| PyStr (s : string)
| PyInt (z : Z)
| PyList (items : list pyval).

(** Python [==] on these values. *)
Fixpoint pyval_eqb (a b : pyval) : bool :=
  match a, b with
  | PyNone, PyNone => true
  | PyStr s, PyStr t => String.eqb s t
  | PyInt x, PyInt y => Z.eqb x y
  | PyList xs, PyList ys =>
      (fix all_eqb (xs ys : list pyval) : bool :=
         match xs, ys with
         | [], [] => true
         | x :: xs', y :: ys' => pyval_eqb x y && all_eqb xs' ys'
         | _, _ => false
         end) xs ys
  | _, _ => false
  end.

(** Whether [hash(x)] succeeds. *)
Definition hashable (x : pyval) : bool :=
  match x with
  | PyList _ => false
  | _ => true
  end.

(** The name of the type of a value, as error messages print it. *)
Definition type_name (x : pyval) : string :=
  match x with
  | PyNone => "NoneType"
  | PyStr _ => "str"
  | PyInt _ => "int"
  | PyList _ => "list"
  end.

(** Whether a hashable value is equal to one of the elements of a set. *)
Definition py_in (x : pyval) (elems : list pyval) : bool :=
  existsb (pyval_eqb x) elems.

(** A shape tuple; [None] is an unconstrained dimension. *)
Definition shape := list (option Z).

(** Exceptions raised by the statements of the file. *)
Inductive exn : Type :=
| ValueError (msg : string)
| TypeError (msg : string).

(** The double-quote character, for messages that contain it. *)
Definition dquote : string := String (ascii_of_nat 34) EmptyString.

(** ** Module-level constants *)

Definition TH_WEIGHTS_PATH : string :=
  "https://github.com/fchollet/deep-learning-models/releases/download/v0.1/vgg19_weights_th_dim_ordering_th_kernels.h5".
Definition TF_WEIGHTS_PATH : string :=
  "https://github.com/fchollet/deep-learning-models/releases/download/v0.1/vgg19_weights_tf_dim_ordering_tf_kernels.h5".
Definition TH_WEIGHTS_PATH_NO_TOP : string :=
  "https://github.com/fchollet/deep-learning-models/releases/download/v0.1/vgg19_weights_th_dim_ordering_th_kernels_notop.h5".
Definition TF_WEIGHTS_PATH_NO_TOP : string :=
  "https://github.com/fchollet/deep-learning-models/releases/download/v0.1/vgg19_weights_tf_dim_ordering_tf_kernels_notop.h5".

Definition weights_value_error : string :=
  "The `weights` argument should be either " ++
  "`None` (random initialization) or `imagenet` " ++
  "(pre-training on ImageNet).".

Definition th_ordering_warning : string :=
  "You are using the TensorFlow backend, yet you " ++
  "are using the Theano " ++
  "image dimension ordering convention " ++
  "(`image_dim_ordering=" ++ dquote ++ "th" ++ dquote ++ "`). " ++
  "For best performance, set " ++
  "`image_dim_ordering=" ++ dquote ++ "tf" ++ dquote ++ "` in " ++
  "your Keras config " ++
  "at ~/.keras/keras.json.".

(** ** The ambient backend, [keras.backend as K] *)

(** What the function reads from the backend module: the two configuration
    strings and the test for framework tensors.  Caller-supplied tensor
    objects are identified by a number. *)
Record Backend : Type := {
  image_dim_ordering : string;
  backend : string;
  is_keras_tensor : nat -> bool
}.

(** Configurations and a cache layout to run the function on. *)
Definition th_tensorflow : Backend :=
  {| image_dim_ordering := "th"; backend := "tensorflow";
     is_keras_tensor := Nat.even |}.
Definition tf_theano : Backend :=
  {| image_dim_ordering := "tf"; backend := "theano";
     is_keras_tensor := Nat.even |}.
Definition tf_tensorflow : Backend :=
  {| image_dim_ordering := "tf"; backend := "tensorflow";
     is_keras_tensor := Nat.even |}.

Definition keras_cache (fname origin cache_subdir : string) : string :=
  "~/.keras/" ++ cache_subdir ++ "/" ++ fname.

(** A multiplier of one half, as a rational. *)
Definition half : Q := (1 # 2)%Q.

Section Vgg19.

(** The type of the learning-rate multiplier ([layers_lr] is passed through
    to the layers and never computed with). *)
Variable scalar : Type.

(** ** Layers, tensors and models *)

(** Layer instances, with the arguments the file gives them. *)
Inductive layer : Type :=
| Convolution2D (nb_filter nb_row nb_col : Z)
                (activation border_mode name : string)
                (W_learning_rate_multiplier b_learning_rate_multiplier : scalar)
| MaxPooling2D (pool_size strides : Z * Z) (name : string)
| Flatten (name : string)
| Dense (output_dim : Z) (activation name : string)
        (W_learning_rate_multiplier b_learning_rate_multiplier : scalar).

(** Graph tensors: a caller's object used as it is, the output of
    [Input(tensor=..., shape=...)], or the output of a layer applied to a
    tensor. *)
Inductive tensor : Type :=
| Given (obj : nat)
| Input_ (tensor_arg : option nat) (shape_arg : shape)
| Call (l : layer) (x : tensor).

(** The parameters held by a model: as initialised, as read from a file, or
    as rewritten by the kernel conversion. *)
Inductive weights_state : Type :=
| RandomInit
| Loaded (path : string)
| Converted (w : weights_state).

Record model : Type := {
  m_input : tensor;
  m_output : tensor;
  m_weights : weights_state
}.

(** ** Effects *)

(** Calls into the framework, in the order they are made. *)
Inductive event : Type :=
| NewInput (t : tensor)
| LayerCall (l : layer)
| NewModel (m : model)
| GetFile (fname origin cache_subdir : string)
| LoadWeights (path : string)
| Warn (msg : string)
| ConvertKernels.

(** State (the log) and error monad. *)
Definition M (A : Type) : Type := list event -> list event * (exn + A).

Definition ret {A} (a : A) : M A := fun log => (log, inr a).

Definition bind {A B} (c : M A) (k : A -> M B) : M B :=
  fun log =>
    match c log with
    | (log', inl e) => (log', inl e)
    | (log', inr a) => k a log'
    end.

Definition raise {A} (e : exn) : M A := fun log => (log, inl e).

Definition emit (e : event) : M unit := fun log => ((log ++ [e])%list, inr tt).

Notation "x <- c ;; k" := (bind c (fun x => k))
  (at level 61, c at next level, right associativity).
Notation "c ;;; k" := (bind c (fun _ => k))
  (at level 61, right associativity).

(** Run a computation from the empty log. *)
Definition run {A} (c : M A) : list event * (exn + A) := c [].

(** Python [x in {...}] for a set literal given by its elements: the value
    is hashed first, which raises TypeError for an unhashable one. *)
Definition set_contains (x : pyval) (elems : list pyval) : M bool :=
  if hashable x then ret (py_in x elems)
  else raise (TypeError ("unhashable type: '" ++ type_name x ++ "'")).

(** ** Framework calls *)

Variable K : Backend.

(** The local path [get_file] returns for a file name, origin and cache
    sub-directory. *)
Variable get_file_path : string -> string -> string -> string.

(** [Input(tensor=..., shape=...)] *)
Definition Input (tensor_arg : option nat) (shape_arg : shape) : M tensor :=
  let t := Input_ tensor_arg shape_arg in
  emit (NewInput t) ;;; ret t.

(** [layer(x)] *)
Definition call (l : layer) (x : tensor) : M tensor :=
  emit (LayerCall l) ;;; ret (Call l x).

(** [Model(input, output)] *)
Definition Model (input output : tensor) : M model :=
  let m := {| m_input := input; m_output := output; m_weights := RandomInit |} in
  emit (NewModel m) ;;; ret m.

(** [get_file(fname, origin, cache_subdir=...)]: the file is fetched into
    the cache (or found there) and its local path is returned. *)
Definition get_file (fname origin cache_subdir : string) : M string :=
  emit (GetFile fname origin cache_subdir) ;;;
  ret (get_file_path fname origin cache_subdir).

(** Modelled from the spec: [Model.load_weights] is framework code; the
    parameters of the model are replaced, in place, by those of the file. *)
Definition load_weights (m : model) (path : string) : M model :=
  emit (LoadWeights path) ;;;
  ret {| m_input := m_input m; m_output := m_output m;
         m_weights := Loaded path |}.

(** [warnings.warn(msg)] *)
Definition warn (msg : string) : M unit := emit (Warn msg).

(** Modelled from the spec: [convert_all_kernels_in_model] is framework
    code; the kernels the model holds are rewritten, in place. *)
Definition convert_all_kernels_in_model (m : model) : M model :=
  emit ConvertKernels ;;;
  ret {| m_input := m_input m; m_output := m_output m;
         m_weights := Converted (m_weights m) |}.

(** ** The factory *)

Definition VGG19 (include_top : bool) (weights : pyval)
    (input_tensor : option nat) (layers_lr : scalar) : M model :=
  found <- set_contains weights [PyStr "imagenet"; PyNone] ;;
  if negb found then
    raise (ValueError weights_value_error)
  else
  (* Determine proper input shape *)
  let input_shape : shape :=
    if image_dim_ordering K =? "th" then
      if include_top then [Some 3; Some 224; Some 224]
      else [Some 3; None; None]
    else
      if include_top then [Some 224; Some 224; Some 3]
      else [None; None; Some 3] in
  img_input <-
    match input_tensor with
    | None => Input None input_shape
    | Some t =>
        if negb (is_keras_tensor K t) then Input (Some t) input_shape
        else ret (Given t)
    end ;;
  (* Block 1 *)
  x <- call (Convolution2D 64 3 3 "relu" "same" "block1_conv1" layers_lr layers_lr) img_input ;;
  x <- call (Convolution2D 64 3 3 "relu" "same" "block1_conv2" layers_lr layers_lr) x ;;
  x <- call (MaxPooling2D (2, 2) (2, 2) "block1_pool") x ;;
  (* Block 2 *)
  x <- call (Convolution2D 128 3 3 "relu" "same" "block2_conv1" layers_lr layers_lr) x ;;
  x <- call (Convolution2D 128 3 3 "relu" "same" "block2_conv2" layers_lr layers_lr) x ;;
  x <- call (MaxPooling2D (2, 2) (2, 2) "block2_pool") x ;;
  (* Block 3 *)
  x <- call (Convolution2D 256 3 3 "relu" "same" "block3_conv1" layers_lr layers_lr) x ;;
  x <- call (Convolution2D 256 3 3 "relu" "same" "block3_conv2" layers_lr layers_lr) x ;;
  x <- call (Convolution2D 256 3 3 "relu" "same" "block3_conv3" layers_lr layers_lr) x ;;
  x <- call (Convolution2D 256 3 3 "relu" "same" "block3_conv4" layers_lr layers_lr) x ;;
  x <- call (MaxPooling2D (2, 2) (2, 2) "block3_pool") x ;;
  (* Block 4 *)
  x <- call (Convolution2D 512 3 3 "relu" "same" "block4_conv1" layers_lr layers_lr) x ;;
  x <- call (Convolution2D 512 3 3 "relu" "same" "block4_conv2" layers_lr layers_lr) x ;;
  x <- call (Convolution2D 512 3 3 "relu" "same" "block4_conv3" layers_lr layers_lr) x ;;
  x <- call (Convolution2D 512 3 3 "relu" "same" "block4_conv4" layers_lr layers_lr) x ;;
  x <- call (MaxPooling2D (2, 2) (2, 2) "block4_pool") x ;;
  (* Block 5 *)
  x <- call (Convolution2D 512 3 3 "relu" "same" "block5_conv1" layers_lr layers_lr) x ;;
  x <- call (Convolution2D 512 3 3 "relu" "same" "block5_conv2" layers_lr layers_lr) x ;;
  x <- call (Convolution2D 512 3 3 "relu" "same" "block5_conv3" layers_lr layers_lr) x ;;
  x <- call (Convolution2D 512 3 3 "relu" "same" "block5_conv4" layers_lr layers_lr) x ;;
  x <- call (MaxPooling2D (2, 2) (2, 2) "block5_pool") x ;;
  x <-
    (if include_top then
       (* Classification block *)
       x <- call (Flatten "flatten") x ;;
       x <- call (Dense 4096 "relu" "fc1" layers_lr layers_lr) x ;;
       x <- call (Dense 4096 "relu" "fc2" layers_lr layers_lr) x ;;
       call (Dense 1000 "softmax" "predictions" layers_lr layers_lr) x
     else ret x) ;;
  (* Create model *)
  model <- Model img_input x ;;
  (* load weights *)
  model <-
    (if pyval_eqb weights (PyStr "imagenet") then
       if image_dim_ordering K =? "th" then
         weights_path <-
           (if include_top then
              get_file "vgg19_weights_th_dim_ordering_th_kernels.h5"
                       TH_WEIGHTS_PATH "models"
            else
              get_file "vgg19_weights_th_dim_ordering_th_kernels_notop.h5"
                       TH_WEIGHTS_PATH_NO_TOP "models") ;;
         model <- load_weights model weights_path ;;
         if backend K =? "tensorflow" then
           warn th_ordering_warning ;;;
           convert_all_kernels_in_model model
         else ret model
       else
         weights_path <-
           (if include_top then
              get_file "vgg19_weights_tf_dim_ordering_tf_kernels.h5"
                       TF_WEIGHTS_PATH "models"
            else
              get_file "vgg19_weights_tf_dim_ordering_tf_kernels_notop.h5"
                       TF_WEIGHTS_PATH_NO_TOP "models") ;;
         model <- load_weights model weights_path ;;
         if backend K =? "theano" then
           convert_all_kernels_in_model model
         else ret model
     else ret model) ;;
  ret model.

(** ** Reading a model *)

(** The layers met from a tensor back to the tensor the chain starts from,
    and that tensor. *)
Fixpoint chain (t : tensor) : list layer :=
  match t with
  | Call l x => l :: chain x
  | _ => []
  end.

Fixpoint entry (t : tensor) : tensor :=
  match t with
  | Call _ x => entry x
  | _ => t
  end.

(** The layers of a model, first applied first. *)
Definition layers (m : model) : list layer := rev (chain (m_output m)).

Definition is_conv (l : layer) : bool :=
  match l with Convolution2D _ _ _ _ _ _ _ _ => true | _ => false end.
Definition is_pool (l : layer) : bool :=
  match l with MaxPooling2D _ _ _ => true | _ => false end.
Definition is_flatten (l : layer) : bool :=
  match l with Flatten _ => true | _ => false end.
Definition is_dense (l : layer) : bool :=
  match l with Dense _ _ _ _ _ => true | _ => false end.

(** The number of filters of a convolution. *)
Definition conv_width (l : layer) : option Z :=
  match l with
  | Convolution2D n _ _ _ _ _ _ _ => Some n
  | _ => None
  end.

Definition conv_widths (ls : list layer) : list Z :=
  flat_map (fun l => match conv_width l with Some n => [n] | None => [] end) ls.

(** The multipliers of a layer that has parameters. *)
Definition lr_multipliers (l : layer) : option (scalar * scalar) :=
  match l with
  | Convolution2D _ _ _ _ _ _ w b => Some (w, b)
  | Dense _ _ _ w b => Some (w, b)
  | _ => None
  end.

(** Cut a layer sequence after each pooling layer: the stages (each ends
    with its pooling layer) and what follows the last pooling layer. *)
Fixpoint stages (ls : list layer) : list (list layer) * list layer :=
  match ls with
  | [] => ([], [])
  | l :: ls' =>
      let (sts, rest) := stages ls' in
      if is_pool l then ([l] :: sts, rest)
      else match sts with
           | [] => ([], l :: rest)
           | st :: sts' => ((l :: st) :: sts', rest)
           end
  end.

Definition has_width (n : Z) (l : layer) : bool :=
  match conv_width l with
  | Some n' => Z.eqb n' n
  | None => false
  end.

(** A stage made of convolutions of one width followed by one pooling
    layer: how many convolutions, and their width. *)
Definition stage_row (st : list layer) : option (nat * Z) :=
  match removelast st with
  | [] => None
  | (l :: _) as body =>
      match conv_width l with
      | Some n =>
          if forallb (has_width n) body && is_pool (last st l)
          then Some (length body, n)
          else None
      | None => None
      end
  end.

Fixpoint nondecreasing (ws : list Z) : bool :=
  match ws with
  | a :: ((b :: _) as tl) => Z.leb a b && nondecreasing tl
  | _ => true
  end.

(** ** Reading a log *)

Definition is_new_input (e : event) : bool :=
  match e with NewInput _ => true | _ => false end.
Definition is_get_file (e : event) : bool :=
  match e with GetFile _ _ _ => true | _ => false end.
Definition is_load_weights (e : event) : bool :=
  match e with LoadWeights _ => true | _ => false end.
Definition is_warn (e : event) : bool :=
  match e with Warn _ => true | _ => false end.
Definition is_convert (e : event) : bool :=
  match e with ConvertKernels => true | _ => false end.

(** The calls that fetch, load or rewrite weights, or warn about them. *)
Definition is_weight_event (e : event) : bool :=
  is_get_file e || is_load_weights e || is_warn e || is_convert e.

Definition count (p : event -> bool) (log : list event) : nat :=
  length (filter p log).

(** The file the parameters of a model were read from. *)
Fixpoint loaded_from (w : weights_state) : option string :=
  match w with
  | RandomInit => None
  | Loaded path => Some path
  | Converted w' => loaded_from w'
  end.

(** ** The architecture, written out *)

(** The layer sequence the construction is compared with. *)
Definition conv3x3 (n : Z) (name : string) (lr : scalar) : layer :=
  Convolution2D n 3 3 "relu" "same" name lr lr.
Definition pool2x2 (name : string) : layer :=
  MaxPooling2D (2, 2) (2, 2) name.

Definition vgg19_base (lr : scalar) : list layer :=
  [ conv3x3 64 "block1_conv1" lr; conv3x3 64 "block1_conv2" lr;
    pool2x2 "block1_pool";
    conv3x3 128 "block2_conv1" lr; conv3x3 128 "block2_conv2" lr;
    pool2x2 "block2_pool";
    conv3x3 256 "block3_conv1" lr; conv3x3 256 "block3_conv2" lr;
    conv3x3 256 "block3_conv3" lr; conv3x3 256 "block3_conv4" lr;
    pool2x2 "block3_pool";
    conv3x3 512 "block4_conv1" lr; conv3x3 512 "block4_conv2" lr;
    conv3x3 512 "block4_conv3" lr; conv3x3 512 "block4_conv4" lr;
    pool2x2 "block4_pool";
    conv3x3 512 "block5_conv1" lr; conv3x3 512 "block5_conv2" lr;
    conv3x3 512 "block5_conv3" lr; conv3x3 512 "block5_conv4" lr;
    pool2x2 "block5_pool" ].

Definition vgg19_top (lr : scalar) : list layer :=
  [ Flatten "flatten";
    Dense 4096 "relu" "fc1" lr lr;
    Dense 4096 "relu" "fc2" lr lr;
    Dense 1000 "softmax" "predictions" lr lr ].

Definition vgg19_layers (include_top : bool) (lr : scalar) : list layer :=
  (vgg19_base lr ++ (if include_top then vgg19_top lr else []))%list.

(** ** Further readings of a model and of a log *)

(** The [name] argument of a layer. *)
Definition layer_name (l : layer) : string :=
  match l with
  | Convolution2D _ _ _ _ _ name _ _ => name
  | MaxPooling2D _ _ name => name
  | Flatten name => name
  | Dense _ _ name _ _ => name
  end.

Definition is_layer_call (e : event) : bool :=
  match e with LayerCall _ => true | _ => false end.
Definition is_new_model (e : event) : bool :=
  match e with NewModel _ => true | _ => false end.

(** The layers called, in the order of the calls. *)
Definition layer_calls (log : list event) : list layer :=
  flat_map (fun e => match e with LayerCall l => [l] | _ => [] end) log.

(** The naming scheme of a block: its convolutions are numbered from 1 and
    its pooling layer closes it. *)
Definition decimal (n : nat) : string :=
  NilEmpty.string_of_uint (Nat.to_uint n).
Definition conv_name (block j : nat) : string :=
  "block" ++ decimal block ++ "_conv" ++ decimal j.
Definition pool_name (block : nat) : string :=
  "block" ++ decimal block ++ "_pool".
Definition block_names (block convs : nat) : list string :=
  (map (conv_name block) (seq 1 convs) ++ [pool_name block])%list.

(** Case analysis on the backend tests a run of [VGG19] branches on. *)
Ltac vgg_branches :=
  repeat match goal with
  | |- context [String.eqb (image_dim_ordering ?k) ?s] =>
      destruct (String.eqb (image_dim_ordering k) s) eqn:?
  | |- context [String.eqb (backend ?k) ?s] =>
      destruct (String.eqb (backend k) s) eqn:?
  | |- context [is_keras_tensor ?k ?t] =>
      destruct (is_keras_tensor k t) eqn:?
  end.

Ltac vgg_unfold :=
  unfold run, VGG19, set_contains; simpl hashable; simpl py_in;
  simpl pyval_eqb.

(** ** Validation of the selector *)

Lemma py_in_weights (w : pyval) :
  py_in w [PyStr "imagenet"; PyNone] = true <->
  w = PyStr "imagenet" \/ w = PyNone.
Proof.
  unfold py_in; simpl.
  destruct w as [ | s | z | items ]; simpl.
  - split; auto.
  - rewrite orb_false_r.
    destruct (String.eqb_spec s "imagenet") as [-> | Hne]; split; auto.
    + discriminate.
    + intros [H | H]; [injection H as H; contradiction | discriminate].
  - split; [discriminate | intros [H | H]; discriminate].
  - split; [discriminate | intros [H | H]; discriminate].
Qed.

Lemma VGG19_rejects include_top weights input_tensor layers_lr log :
  hashable weights = true ->
  py_in weights [PyStr "imagenet"; PyNone] = false ->
  VGG19 include_top weights input_tensor layers_lr log =
  (log, inl (ValueError weights_value_error)).
Proof.
  intros Hh H. unfold VGG19, set_contains, bind, ret.
  rewrite Hh, H. reflexivity.
Qed.

Lemma VGG19_unhashable include_top weights input_tensor layers_lr log :
  hashable weights = false ->
  VGG19 include_top weights input_tensor layers_lr log =
  (log, inl (TypeError ("unhashable type: '" ++ type_name weights ++ "'"))).
Proof.
  intros Hh. unfold VGG19, set_contains, bind, raise.
  rewrite Hh. reflexivity.
Qed.

(** ** Tensors and layer sequences *)

(** A tensor is its chain of layers applied to its entry tensor. *)
Lemma chain_entry (t : tensor) :
  fold_right Call (entry t) (chain t) = t.
Proof.
  induction t as [obj | targ sh | l x IH]; simpl; try reflexivity.
  now rewrite IH.
Qed.

Lemma chain_cons (t : tensor) (l : layer) (ls : list layer) :
  chain t = l :: ls -> exists x, t = Call l x /\ chain x = ls.
Proof.
  destruct t as [obj | targ sh | l' x]; simpl; try discriminate.
  intros H. injection H as -> <-. now exists x.
Qed.

(** The last layer of a model is the one its output comes from. *)
Lemma layers_last (m : model) (ls : list layer) (l : layer) :
  layers m = (ls ++ [l])%list ->
  exists x, m_output m = Call l x /\ chain x = rev ls.
Proof.
  unfold layers. intros H.
  apply (f_equal (@rev layer)) in H.
  rewrite rev_involutive, rev_app_distr in H. simpl in H.
  now apply chain_cons.
Qed.

(** Cutting into stages loses nothing. *)
Lemma stages_concat (ls : list layer) :
  (concat (fst (stages ls)) ++ snd (stages ls))%list = ls.
Proof.
  induction ls as [ | l ls IH]; simpl; [reflexivity | ].
  destruct (stages ls) as [sts rest]; simpl in IH.
  destruct (is_pool l); simpl.
  - now rewrite IH.
  - destruct sts as [ | st sts]; simpl in *; now rewrite IH.
Qed.

(** Every stage ends with a pooling layer, its only one. *)
Lemma stages_terminated (ls : list layer) :
  Forall (fun st => exists body p,
            st = (body ++ [p])%list /\ is_pool p = true /\
            existsb is_pool body = false)
         (fst (stages ls)).
Proof.
  induction ls as [ | l ls IH]; simpl; [constructor | ].
  destruct (stages ls) as [sts rest]; simpl in IH.
  destruct (is_pool l) eqn:El; simpl.
  - constructor; [ | exact IH]. now exists [], l.
  - destruct sts as [ | st sts]; simpl; [constructor | ].
    inversion IH as [ | ? ? (body & p & -> & Hp & Hb) Hrest]; subst.
    constructor; [ | exact Hrest].
    exists (l :: body), p. simpl. now rewrite El, Hb.
Qed.

(** Nothing after the last stage is a pooling layer. *)
Lemma stages_rest (ls : list layer) :
  existsb is_pool (snd (stages ls)) = false.
Proof.
  induction ls as [ | l ls IH]; simpl; [reflexivity | ].
  destruct (stages ls) as [sts rest]; simpl in IH.
  destruct (is_pool l) eqn:El; simpl; [exact IH | ].
  destruct sts; simpl; [now rewrite El | exact IH].
Qed.

(** The boolean test of a non-decreasing sequence is the sortedness of the
    library. *)
Lemma nondecreasing_sorted (ws : list Z) :
  nondecreasing ws = true <-> Sorted Z.le ws.
Proof.
  induction ws as [ | a ws IH]; [split; auto | ].
  destruct ws as [ | b ws].
  - split; [repeat constructor | reflexivity].
  - change (nondecreasing (a :: b :: ws))
      with (Z.leb a b && nondecreasing (b :: ws))%bool.
    rewrite andb_true_iff, IH, Z.leb_le. split.
    + intros [Hab Hs]. constructor; [exact Hs | now constructor].
    + intros Hs. inversion Hs as [ | ? ? Hs' Hhd]; subst.
      inversion Hhd; subst. now split.
Qed.

(** The layers with parameters are the convolutions and the dense layers. *)
Lemma lr_multipliers_trainable (l : layer) :
  lr_multipliers l <> None <-> (is_conv l || is_dense l)%bool = true.
Proof.
  destruct l; simpl; split; congruence.
Qed.

(** ** The graph a call builds *)

(** A call with a recognised selector returns a model whose layers are
    those of the table, chained from the model's input. *)
Lemma VGG19_graph include_top weights input_tensor layers_lr :
  py_in weights [PyStr "imagenet"; PyNone] = true ->
  exists tr m,
    run (VGG19 include_top weights input_tensor layers_lr) = (tr, inr m) /\
    layers m = vgg19_layers include_top layers_lr /\
    entry (m_output m) = m_input m.
Proof.
  intros H. apply py_in_weights in H as [-> | ->];
    destruct include_top, input_tensor as [t | ];
    vgg_unfold; vgg_branches;
    do 2 eexists; (split; [reflexivity | split; reflexivity]).
Qed.

Lemma VGG19_returns include_top weights input_tensor layers_lr :
  py_in weights [PyStr "imagenet"; PyNone] = true ->
  exists tr m,
    run (VGG19 include_top weights input_tensor layers_lr) = (tr, inr m).
Proof.
  intros H.
  destruct (VGG19_graph include_top weights input_tensor layers_lr H)
    as (tr & m & Hrun & _).
  now exists tr, m.
Qed.

(** ** Claims *)

(** C1 (as the code has it): a hashable [weights] value that is neither
    "imagenet" nor None makes the call raise the ValueError with nothing
    logged, that is, before any call into the framework; an unhashable value
    makes the membership test itself raise TypeError, also with nothing
    logged; with "imagenet" or None the call returns a model, so no
    validation error is raised. *)
Theorem C1_weights_validation include_top weights input_tensor layers_lr :
  (hashable weights = true ->
   weights <> PyStr "imagenet" /\ weights <> PyNone ->
   run (VGG19 include_top weights input_tensor layers_lr) =
   ([], inl (ValueError weights_value_error))) /\
  (hashable weights = false ->
   run (VGG19 include_top weights input_tensor layers_lr) =
   ([], inl (TypeError ("unhashable type: '" ++ type_name weights ++ "'")))) /\
  (weights = PyStr "imagenet" \/ weights = PyNone ->
   exists tr m,
     run (VGG19 include_top weights input_tensor layers_lr) = (tr, inr m)).
Proof.
  split; [ | split].
  - intros Hh [Hi Hn]. unfold run. apply VGG19_rejects; [exact Hh | ].
    destruct (py_in weights [PyStr "imagenet"; PyNone]) eqn:E; [ | reflexivity].
    apply py_in_weights in E as [E | E]; contradiction.
  - intros Hh. unfold run. now apply VGG19_unhashable.
  - intros H. apply VGG19_returns. now apply py_in_weights.
Qed.

(** C2: the graph of a returned model has exactly sixteen Convolution2D
    layers, in five stages each closed by a MaxPooling2D layer, with 2
    layers of 64, 2 of 128, 4 of 256, 4 of 512 and 4 of 512 filters; no
    convolution follows the last pooling layer, and the widths never
    decrease. *)
Theorem C2_convolution_stages include_top weights input_tensor layers_lr :
  py_in weights [PyStr "imagenet"; PyNone] = true ->
  exists tr m,
    run (VGG19 include_top weights input_tensor layers_lr) = (tr, inr m) /\
    length (filter is_conv (layers m)) = 16%nat /\
    map stage_row (fst (stages (layers m))) =
      [Some (2%nat, 64); Some (2%nat, 128); Some (4%nat, 256);
       Some (4%nat, 512); Some (4%nat, 512)] /\
    existsb is_conv (snd (stages (layers m))) = false /\
    Sorted Z.le (conv_widths (layers m)).
Proof.
  intros H.
  destruct (VGG19_graph include_top weights input_tensor layers_lr H)
    as (tr & m & Hrun & Hl & _).
  exists tr, m. split; [exact Hrun | ]. rewrite Hl.
  destruct include_top; repeat split; try reflexivity;
    apply nondecreasing_sorted; reflexivity.
Qed.

(** C3 (as the code has it): with pretrained weights and a file whose
    ordering does not match the backend, the call returns a model (no error
    is raised), the conversion is applied exactly once, after the load and
    on the loaded parameters; the warning is emitted, once and before the
    conversion, for a th-ordering file on the tensorflow backend, and is not
    emitted for a tf-ordering file on the theano backend. *)
Theorem C3_layout_mismatch include_top input_tensor layers_lr :
  (image_dim_ordering K = "th" /\ backend K = "tensorflow") \/
  (image_dim_ordering K <> "th" /\ backend K = "theano") ->
  exists tr m fname origin,
    run (VGG19 include_top (PyStr "imagenet") input_tensor layers_lr) =
      (tr, inr m) /\
    filter is_weight_event tr =
      GetFile fname origin "models" ::
      LoadWeights (get_file_path fname origin "models") ::
      (if image_dim_ordering K =? "th"
       then [Warn th_ordering_warning; ConvertKernels]
       else [ConvertKernels]) /\
    count is_convert tr = 1%nat /\
    count is_warn tr =
      (if image_dim_ordering K =? "th" then 1%nat else 0%nat) /\
    m_weights m = Converted (Loaded (get_file_path fname origin "models")).
Proof.
  intros [[Ho Hb] | [Ho Hb]].
  - vgg_unfold. rewrite Ho, Hb. simpl String.eqb.
    destruct include_top, input_tensor as [t | ]; vgg_branches;
      do 4 eexists; repeat split; reflexivity.
  - apply String.eqb_neq in Ho. vgg_unfold. rewrite Ho, Hb. simpl String.eqb.
    destruct include_top, input_tensor as [t | ]; vgg_branches;
      do 4 eexists; repeat split; reflexivity.
Qed.

(** C4: with pretrained weights, exactly one file is fetched and exactly one
    loaded; the file name and origin are those the pair of dimension ordering
    and [include_top] selects, the cache sub-directory is "models", and the
    path loaded is the one the fetch returned. *)
Theorem C4_weight_file include_top input_tensor layers_lr :
  exists tr m,
    run (VGG19 include_top (PyStr "imagenet") input_tensor layers_lr) =
      (tr, inr m) /\
    let '(fname, origin) :=
      match image_dim_ordering K =? "th", include_top with
      | true, true =>
          ("vgg19_weights_th_dim_ordering_th_kernels.h5", TH_WEIGHTS_PATH)
      | true, false =>
          ("vgg19_weights_th_dim_ordering_th_kernels_notop.h5",
           TH_WEIGHTS_PATH_NO_TOP)
      | false, true =>
          ("vgg19_weights_tf_dim_ordering_tf_kernels.h5", TF_WEIGHTS_PATH)
      | false, false =>
          ("vgg19_weights_tf_dim_ordering_tf_kernels_notop.h5",
           TF_WEIGHTS_PATH_NO_TOP)
      end in
    filter (fun e => is_get_file e || is_load_weights e)%bool tr =
      [GetFile fname origin "models";
       LoadWeights (get_file_path fname origin "models")] /\
    loaded_from (m_weights m) = Some (get_file_path fname origin "models").
Proof.
  destruct include_top, input_tensor as [t | ];
    vgg_unfold; vgg_branches;
    do 2 eexists; (split; [reflexivity | split; reflexivity]).
Qed.

(** C5: when no [input_tensor] is given, one input placeholder is built and
    it is the model's input; with [include_top] its shape is 224 by 224 with
    3 channels, channels first under the th ordering and last otherwise;
    without [include_top] the two spatial dimensions are None and the
    channel dimension is 3, at the same position. *)
Theorem C5_input_shape include_top weights layers_lr :
  py_in weights [PyStr "imagenet"; PyNone] = true ->
  exists tr m,
    run (VGG19 include_top weights None layers_lr) = (tr, inr m) /\
    filter is_new_input tr = [NewInput (m_input m)] /\
    m_input m =
      Input_ None
        (if include_top then
           if image_dim_ordering K =? "th"
           then [Some 3; Some 224; Some 224]
           else [Some 224; Some 224; Some 3]
         else
           if image_dim_ordering K =? "th"
           then [Some 3; None; None]
           else [None; None; Some 3]).
Proof.
  intros H. apply py_in_weights in H as [-> | ->];
    destruct include_top; vgg_unfold; vgg_branches;
    do 2 eexists; (split; [reflexivity | split; reflexivity]).
Qed.

(** C6: with [include_top] the layers after the last pooling layer are a
    Flatten and three Dense layers (4096 relu, 4096 relu, 1000 softmax), the
    only Flatten and Dense layers of the model, and the model's output is
    the output of the last Dense; without [include_top] the model has no
    Flatten or Dense layer, nothing follows the last pooling layer, and the
    model's output is the output of block5_pool. *)
Theorem C6_classification_head include_top weights input_tensor layers_lr :
  py_in weights [PyStr "imagenet"; PyNone] = true ->
  exists tr m,
    run (VGG19 include_top weights input_tensor layers_lr) = (tr, inr m) /\
    if include_top then
      snd (stages (layers m)) =
        [Flatten "flatten";
         Dense 4096 "relu" "fc1" layers_lr layers_lr;
         Dense 4096 "relu" "fc2" layers_lr layers_lr;
         Dense 1000 "softmax" "predictions" layers_lr layers_lr] /\
      length (filter is_flatten (layers m)) = 1%nat /\
      length (filter is_dense (layers m)) = 3%nat /\
      exists x,
        m_output m =
        Call (Dense 1000 "softmax" "predictions" layers_lr layers_lr) x
    else
      snd (stages (layers m)) = [] /\
      existsb (fun l => is_flatten l || is_dense l)%bool (layers m) = false /\
      exists x,
        m_output m = Call (MaxPooling2D (2, 2) (2, 2) "block5_pool") x.
Proof.
  intros H.
  destruct (VGG19_graph include_top weights input_tensor layers_lr H)
    as (tr & m & Hrun & Hl & _).
  exists tr, m. split; [exact Hrun | ].
  destruct include_top.
  - destruct (layers_last m
                (vgg19_base layers_lr ++ firstn 3 (vgg19_top layers_lr))
                (Dense 1000 "softmax" "predictions" layers_lr layers_lr))
      as (x & Hx & _); [rewrite Hl; reflexivity | ].
    rewrite Hl. repeat split; try reflexivity. now exists x.
  - destruct (layers_last m (removelast (vgg19_base layers_lr))
                (MaxPooling2D (2, 2) (2, 2) "block5_pool"))
      as (x & Hx & _); [rewrite Hl; reflexivity | ].
    rewrite Hl. repeat split; try reflexivity. now exists x.
Qed.

(** C7: when [input_tensor] is given and is a Keras tensor, it is the
    model's input, the layer chain of the model starts from it, and no input
    placeholder is built. *)
Theorem C7_input_tensor_kept include_top weights t layers_lr :
  py_in weights [PyStr "imagenet"; PyNone] = true ->
  is_keras_tensor K t = true ->
  exists tr m,
    run (VGG19 include_top weights (Some t) layers_lr) = (tr, inr m) /\
    m_input m = Given t /\
    entry (m_output m) = Given t /\
    filter is_new_input tr = [].
Proof.
  intros H Hk. apply py_in_weights in H as [-> | ->];
    destruct include_top; vgg_unfold; rewrite Hk; simpl negb; vgg_branches;
    do 2 eexists; (split; [reflexivity | repeat split; reflexivity]).
Qed.

(** C8: every layer of a returned model that has parameters carries
    [layers_lr] as both of its learning-rate multipliers; these layers are
    the sixteen convolutions and, with [include_top], the three Dense
    layers. *)
Theorem C8_learning_rate_multipliers include_top weights input_tensor
    layers_lr :
  py_in weights [PyStr "imagenet"; PyNone] = true ->
  exists tr m,
    run (VGG19 include_top weights input_tensor layers_lr) = (tr, inr m) /\
    (forall l w b,
       In l (layers m) -> lr_multipliers l = Some (w, b) ->
       w = layers_lr /\ b = layers_lr) /\
    length (filter is_conv (layers m)) = 16%nat /\
    length (filter is_dense (layers m)) = (if include_top then 3 else 0)%nat.
Proof.
  intros H.
  destruct (VGG19_graph include_top weights input_tensor layers_lr H)
    as (tr & m & Hrun & Hl & _).
  exists tr, m. split; [exact Hrun | ]. rewrite Hl. split.
  - assert (Hall : Forall (fun l => forall w b,
                             lr_multipliers l = Some (w, b) ->
                             w = layers_lr /\ b = layers_lr)
                          (vgg19_layers include_top layers_lr)).
    { destruct include_top;
        repeat (apply Forall_cons;
                [simpl; intros w b E; try discriminate;
                 injection E as <- <-; now split | ]);
        apply Forall_nil. }
    intros l w b Hin. exact (proj1 (Forall_forall _ _) Hall l Hin w b).
  - destruct include_top; split; reflexivity.
Qed.

(** C10: with [weights] None no file is fetched, no weights are loaded, no
    warning is emitted and no conversion is made; the model returned is the
    one [Model] built, which is the last call made, and its parameters are
    those of its initialisation. *)
Theorem C10_no_weights include_top input_tensor layers_lr :
  exists tr m,
    run (VGG19 include_top PyNone input_tensor layers_lr) = (tr, inr m) /\
    count is_get_file tr = 0%nat /\
    count is_load_weights tr = 0%nat /\
    count is_convert tr = 0%nat /\
    filter is_weight_event tr = [] /\
    last tr ConvertKernels = NewModel m /\
    m_weights m = RandomInit.
Proof.
  destruct include_top, input_tensor as [t | ];
    vgg_unfold; vgg_branches;
    do 2 eexists; (split; [reflexivity | repeat split; reflexivity]).
Qed.

(** ** Further properties of the construction *)

(** X1: an [input_tensor] that is not a Keras tensor is wrapped: one Input
    placeholder is built from it, with the shape the dimension ordering and
    [include_top] select, and that placeholder is the model's input, from
    which the layer chain starts. *)
Theorem X1_input_tensor_wrapped include_top weights t layers_lr :
  py_in weights [PyStr "imagenet"; PyNone] = true ->
  is_keras_tensor K t = false ->
  exists tr m,
    run (VGG19 include_top weights (Some t) layers_lr) = (tr, inr m) /\
    filter is_new_input tr = [NewInput (m_input m)] /\
    m_input m =
      Input_ (Some t)
        (if include_top then
           if image_dim_ordering K =? "th"
           then [Some 3; Some 224; Some 224]
           else [Some 224; Some 224; Some 3]
         else
           if image_dim_ordering K =? "th"
           then [Some 3; None; None]
           else [None; None; Some 3]) /\
    entry (m_output m) = m_input m.
Proof.
  intros H Hk. apply py_in_weights in H as [-> | ->];
    destruct include_top; vgg_unfold; rewrite Hk; simpl negb; vgg_branches;
    do 2 eexists; (split; [reflexivity | repeat split; reflexivity]).
Qed.

(** X2: with pretrained weights and no mismatch between the file's ordering
    and the backend (th ordering off tensorflow, another ordering off
    theano), the weights are loaded once, no warning is emitted, no
    conversion is made, and the model holds the parameters as loaded. *)
Theorem X2_no_mismatch_no_conversion include_top input_tensor layers_lr :
  (image_dim_ordering K = "th" -> backend K <> "tensorflow") ->
  (image_dim_ordering K <> "th" -> backend K <> "theano") ->
  exists tr m path,
    run (VGG19 include_top (PyStr "imagenet") input_tensor layers_lr) =
      (tr, inr m) /\
    filter is_load_weights tr = [LoadWeights path] /\
    count is_warn tr = 0%nat /\
    count is_convert tr = 0%nat /\
    m_weights m = Loaded path.
Proof.
  intros Hth Htf. vgg_unfold.
  destruct (String.eqb_spec (image_dim_ordering K) "th") as [Eo | Eo].
  - specialize (Hth Eo). apply String.eqb_neq in Hth. rewrite Hth.
    destruct include_top, input_tensor as [t | ]; vgg_branches;
      do 3 eexists; (split; [reflexivity | repeat split; reflexivity]).
  - specialize (Htf Eo). apply String.eqb_neq in Htf. rewrite Htf.
    destruct include_top, input_tensor as [t | ]; vgg_branches;
      do 3 eexists; (split; [reflexivity | repeat split; reflexivity]).
Qed.

(** X3: a call with pretrained weights makes the calls of the same call
    with [weights] None, in the same order, and after them only calls that
    fetch, load, warn about or convert weights; the two models have the same
    input and output tensors. *)
Theorem X3_pretrained_extends_random include_top input_tensor layers_lr :
  exists tr0 m0 tr m,
    run (VGG19 include_top PyNone input_tensor layers_lr) = (tr0, inr m0) /\
    run (VGG19 include_top (PyStr "imagenet") input_tensor layers_lr) =
      (tr, inr m) /\
    tr = (tr0 ++ filter is_weight_event tr)%list /\
    m_input m = m_input m0 /\
    m_output m = m_output m0.
Proof.
  destruct include_top, input_tensor as [t | ];
    vgg_unfold; vgg_branches;
    do 4 eexists;
    (split; [reflexivity | split; [reflexivity | repeat split; reflexivity]]).
Qed.

(** X4: whatever the selectors and the input tensors, the layers of a model
    built with [include_top] are the layers of a model built without it,
    followed by the four layers of the classification block. *)
Theorem X4_head_appended weights weights' input_tensor input_tensor'
    layers_lr :
  py_in weights [PyStr "imagenet"; PyNone] = true ->
  py_in weights' [PyStr "imagenet"; PyNone] = true ->
  exists tr m tr' m',
    run (VGG19 false weights input_tensor layers_lr) = (tr, inr m) /\
    run (VGG19 true weights' input_tensor' layers_lr) = (tr', inr m') /\
    layers m' =
      (layers m ++
       [Flatten "flatten";
        Dense 4096 "relu" "fc1" layers_lr layers_lr;
        Dense 4096 "relu" "fc2" layers_lr layers_lr;
        Dense 1000 "softmax" "predictions" layers_lr layers_lr])%list.
Proof.
  intros H H'.
  destruct (VGG19_graph false weights input_tensor layers_lr H)
    as (tr & m & Hrun & Hl & _).
  destruct (VGG19_graph true weights' input_tensor' layers_lr H')
    as (tr' & m' & Hrun' & Hl' & _).
  exists tr, m, tr', m'. rewrite Hl, Hl'. repeat split; assumption.
Qed.

(** X5: in a returned model every convolution has a 3 by 3 kernel, relu
    activation and border mode same, every pooling layer has pool size and
    strides (2, 2), there are five pooling layers, 25 layers with the
    classification block and 21 without, and no two layers share a name. *)
Theorem X5_layer_arguments include_top weights input_tensor layers_lr :
  py_in weights [PyStr "imagenet"; PyNone] = true ->
  exists tr m,
    run (VGG19 include_top weights input_tensor layers_lr) = (tr, inr m) /\
    Forall (fun l =>
              match l with
              | Convolution2D _ r c act bm _ _ _ =>
                  r = 3 /\ c = 3 /\ act = "relu" /\ bm = "same"
              | MaxPooling2D ps st _ => ps = (2, 2) /\ st = (2, 2)
              | _ => True
              end) (layers m) /\
    length (filter is_pool (layers m)) = 5%nat /\
    length (layers m) = (if include_top then 25 else 21)%nat /\
    NoDup (map layer_name (layers m)).
Proof.
  intros H.
  destruct (VGG19_graph include_top weights input_tensor layers_lr H)
    as (tr & m & Hrun & Hl & _).
  exists tr, m. split; [exact Hrun | ]. rewrite Hl.
  split; [ | split; [ | split]].
  - destruct include_top;
      repeat (apply Forall_cons; [simpl; try exact I; repeat split | ]);
      apply Forall_nil.
  - destruct include_top; reflexivity.
  - destruct include_top; reflexivity.
  - assert (E : nodup string_dec
                  (map layer_name (vgg19_layers include_top layers_lr)) =
                map layer_name (vgg19_layers include_top layers_lr))
      by (destruct include_top; vm_compute; reflexivity).
    rewrite <- E. apply NoDup_nodup.
Qed.

(** X6: the layers called during a call are the layers of the returned
    model, in the order of the calls; one model is constructed, after every
    layer call, over the input and output tensors of the returned model and
    with the parameters of its initialisation; the layer chain of the model
    starts from its input. *)
Theorem X6_calls_and_model include_top weights input_tensor layers_lr :
  py_in weights [PyStr "imagenet"; PyNone] = true ->
  exists tr m,
    run (VGG19 include_top weights input_tensor layers_lr) = (tr, inr m) /\
    layer_calls tr = layers m /\
    filter (fun e => is_layer_call e || is_new_model e)%bool tr =
      (map LayerCall (layers m) ++
       [NewModel {| m_input := m_input m; m_output := m_output m;
                    m_weights := RandomInit |}])%list /\
    entry (m_output m) = m_input m.
Proof.
  intros H. apply py_in_weights in H as [-> | ->];
    destruct include_top, input_tensor as [t | ];
    vgg_unfold; vgg_branches;
    do 2 eexists; (split; [reflexivity | repeat split; reflexivity]).
Qed.

(** X7: with pretrained weights exactly one file is fetched, and its
    origin is the release address followed by the very file name it is
    cached under. *)
Theorem X7_origin_matches_file_name include_top input_tensor layers_lr :
  exists tr m fname,
    run (VGG19 include_top (PyStr "imagenet") input_tensor layers_lr) =
      (tr, inr m) /\
    filter is_get_file tr =
      [GetFile fname
         ("https://github.com/fchollet/deep-learning-models/releases/download/v0.1/"
          ++ fname)
         "models"].
Proof.
  destruct include_top, input_tensor as [t | ];
    vgg_unfold; vgg_branches;
    do 3 eexists; (split; reflexivity).
Qed.

(** X8: the names of the layers follow their position: in the k-th stage
    the convolutions are named block k _conv 1, 2, ... in order and the
    pooling layer that closes the stage is named block k _pool. *)
Theorem X8_layer_names include_top weights input_tensor layers_lr :
  py_in weights [PyStr "imagenet"; PyNone] = true ->
  exists tr m,
    run (VGG19 include_top weights input_tensor layers_lr) = (tr, inr m) /\
    map (map layer_name) (fst (stages (layers m))) =
      [block_names 1 2; block_names 2 2; block_names 3 4;
       block_names 4 4; block_names 5 4].
Proof.
  intros H.
  destruct (VGG19_graph include_top weights input_tensor layers_lr H)
    as (tr & m & Hrun & Hl & _).
  exists tr, m. split; [exact Hrun | ]. rewrite Hl.
  destruct include_top; reflexivity.
Qed.

End Vgg19.

Arguments run {scalar A} c.
Arguments VGG19 {scalar} K get_file_path include_top weights input_tensor
  layers_lr.
Arguments layers {scalar} m.
Arguments chain {scalar} t.
Arguments entry {scalar} t.
Arguments stages {scalar} ls.
Arguments stage_row {scalar} st.
Arguments conv_widths {scalar} ls.
Arguments lr_multipliers {scalar} l.
Arguments is_conv {scalar} l.
Arguments is_pool {scalar} l.
Arguments is_flatten {scalar} l.
Arguments is_dense {scalar} l.
Arguments is_new_input {scalar} e.
Arguments is_get_file {scalar} e.
Arguments is_load_weights {scalar} e.
Arguments is_warn {scalar} e.
Arguments is_convert {scalar} e.
Arguments is_weight_event {scalar} e.
Arguments count {scalar} p log.
Arguments m_input {scalar} m.
Arguments m_output {scalar} m.
Arguments m_weights {scalar} m.
Arguments Given {scalar} obj.
Arguments Input_ {scalar} tensor_arg shape_arg.
Arguments Call {scalar} l x.
Arguments Flatten {scalar} name.
Arguments MaxPooling2D {scalar} pool_size strides name.
Arguments NewInput {scalar} t.
Arguments NewModel {scalar} m.
Arguments GetFile {scalar} fname origin cache_subdir.
Arguments LoadWeights {scalar} path.
Arguments Warn {scalar} msg.
Arguments ConvertKernels {scalar}.

(** ** The claims on concrete calls *)

(** C1 as claimed fails on the selector ['imagenet'], a list: it is
    neither "imagenet" nor None, and the call raises TypeError, not the
    ValueError. *)
Lemma C1_unhashable_counterexample :
  PyList [PyStr "imagenet"] <> PyStr "imagenet" /\
  PyList [PyStr "imagenet"] <> PyNone /\
  run (VGG19 tf_tensorflow keras_cache true (PyList [PyStr "imagenet"]) None
         half) =
  ([], inl (TypeError "unhashable type: 'list'")) /\
  run (VGG19 tf_tensorflow keras_cache true (PyList [PyStr "imagenet"]) None
         half) <>
  ([], inl (ValueError weights_value_error)).
Proof.
  split; [discriminate | split; [discriminate | ]].
  split; [reflexivity | discriminate].
Qed.

(** C1 on the selectors "resnet", [1] and "imagenet". *)
Lemma C1_weights_validation_witness :
  (hashable (PyStr "resnet") = true /\
   PyStr "resnet" <> PyStr "imagenet" /\ PyStr "resnet" <> PyNone) /\
  run (VGG19 tf_tensorflow keras_cache true (PyStr "resnet") None half) =
  ([], inl (ValueError weights_value_error)) /\
  hashable (PyList [PyInt 1]) = false /\
  run (VGG19 tf_tensorflow keras_cache true (PyList [PyInt 1]) None half) =
  ([], inl (TypeError "unhashable type: 'list'")) /\
  exists tr m,
    run (VGG19 tf_tensorflow keras_cache true (PyStr "imagenet") None half) =
    (tr, inr m).
Proof.
  assert (H : PyStr "resnet" <> PyStr "imagenet" /\ PyStr "resnet" <> PyNone)
    by (split; discriminate).
  split; [split; [reflexivity | exact H] | ].
  split; [ | split; [reflexivity | split]].
  - exact (proj1 (C1_weights_validation Q tf_tensorflow keras_cache true
                    (PyStr "resnet") None half) eq_refl H).
  - exact (proj1 (proj2 (C1_weights_validation Q tf_tensorflow keras_cache
                           true (PyList [PyInt 1]) None half)) eq_refl).
  - exact (proj2 (proj2 (C1_weights_validation Q tf_tensorflow keras_cache
                           true (PyStr "imagenet") None half))
             (or_introl eq_refl)).
Defined.

(** C2 on the default call. *)
Lemma C2_convolution_stages_witness :
  py_in (PyStr "imagenet") [PyStr "imagenet"; PyNone] = true /\
  exists tr m,
    run (VGG19 tf_tensorflow keras_cache true (PyStr "imagenet") None half) =
      (tr, inr m) /\
    length (filter is_conv (layers m)) = 16%nat /\
    map stage_row (fst (stages (layers m))) =
      [Some (2%nat, 64); Some (2%nat, 128); Some (4%nat, 256);
       Some (4%nat, 512); Some (4%nat, 512)] /\
    existsb is_conv (snd (stages (layers m))) = false /\
    Sorted Z.le (conv_widths (layers m)).
Proof.
  split; [reflexivity | ].
  apply (C2_convolution_stages Q tf_tensorflow keras_cache true
           (PyStr "imagenet") None half).
  reflexivity.
Defined.

(** C3 as claimed fails on a tf-ordering file with the theano backend: the
    orderings do not match and the kernels are converted, yet the log of the
    call holds no warning. *)
Lemma C3_warning_counterexample :
  image_dim_ordering tf_theano <> "th" /\
  backend tf_theano = "theano" /\
  exists tr m,
    run (VGG19 tf_theano keras_cache true (PyStr "imagenet") None half) =
      (tr, inr m) /\
    count is_convert tr = 1%nat /\
    count is_warn tr = 0%nat /\
    ~ (exists msg, In (Warn msg) tr).
Proof.
  split; [discriminate | split; [reflexivity | ]].
  do 2 eexists. split; [lazy; reflexivity | ].
  split; [reflexivity | split; [reflexivity | ]].
  intros [msg Hin]. simpl in Hin.
  repeat (destruct Hin as [Hin | Hin]; [discriminate Hin | ]).
  exact Hin.
Qed.

(** C3 on a th-ordering file with the tensorflow backend. *)
Lemma C3_layout_mismatch_witness :
  ((image_dim_ordering th_tensorflow = "th" /\
    backend th_tensorflow = "tensorflow") \/
   (image_dim_ordering th_tensorflow <> "th" /\
    backend th_tensorflow = "theano")) /\
  exists tr m fname origin,
    run (VGG19 th_tensorflow keras_cache false (PyStr "imagenet") None half) =
      (tr, inr m) /\
    filter is_weight_event tr =
      GetFile fname origin "models" ::
      LoadWeights (keras_cache fname origin "models") ::
      (if image_dim_ordering th_tensorflow =? "th"
       then [Warn th_ordering_warning; ConvertKernels]
       else [ConvertKernels]) /\
    count is_convert tr = 1%nat /\
    count is_warn tr =
      (if image_dim_ordering th_tensorflow =? "th" then 1%nat else 0%nat) /\
    m_weights m = Converted (Loaded (keras_cache fname origin "models")).
Proof.
  assert (H : (image_dim_ordering th_tensorflow = "th" /\
               backend th_tensorflow = "tensorflow") \/
              (image_dim_ordering th_tensorflow <> "th" /\
               backend th_tensorflow = "theano"))
    by (left; split; reflexivity).
  split; [exact H | ].
  exact (C3_layout_mismatch Q th_tensorflow keras_cache false None half H).
Defined.

(** C5 on a call without the classification head, th ordering. *)
Lemma C5_input_shape_witness :
  py_in PyNone [PyStr "imagenet"; PyNone] = true /\
  exists tr m,
    run (VGG19 th_tensorflow keras_cache false PyNone None half) =
      (tr, inr m) /\
    filter is_new_input tr = [NewInput (m_input m)] /\
    m_input m = Input_ None [Some 3; None; None].
Proof.
  split; [reflexivity | ].
  apply (C5_input_shape Q th_tensorflow keras_cache false PyNone half).
  reflexivity.
Defined.

(** C6 on a call with the classification head. *)
Lemma C6_classification_head_witness :
  py_in PyNone [PyStr "imagenet"; PyNone] = true /\
  exists tr m,
    run (VGG19 tf_tensorflow keras_cache true PyNone None half) =
      (tr, inr m) /\
    snd (stages (layers m)) =
      [Flatten "flatten";
       Dense Q 4096 "relu" "fc1" half half;
       Dense Q 4096 "relu" "fc2" half half;
       Dense Q 1000 "softmax" "predictions" half half] /\
    length (filter is_flatten (layers m)) = 1%nat /\
    length (filter is_dense (layers m)) = 3%nat /\
    exists x,
      m_output m = Call (Dense Q 1000 "softmax" "predictions" half half) x.
Proof.
  split; [reflexivity | ].
  apply (C6_classification_head Q tf_tensorflow keras_cache true PyNone None
           half).
  reflexivity.
Defined.

(** C7 on the caller's tensor 4, which the configuration takes for a Keras
    tensor. *)
Lemma C7_input_tensor_kept_witness :
  py_in (PyStr "imagenet") [PyStr "imagenet"; PyNone] = true /\
  is_keras_tensor tf_tensorflow 4 = true /\
  exists tr m,
    run (VGG19 tf_tensorflow keras_cache true (PyStr "imagenet") (Some 4%nat)
           half) = (tr, inr m) /\
    m_input m = Given 4 /\
    entry (m_output m) = Given 4 /\
    filter is_new_input tr = [].
Proof.
  split; [reflexivity | split; [reflexivity | ]].
  apply (C7_input_tensor_kept Q tf_tensorflow keras_cache true
           (PyStr "imagenet") 4%nat half); reflexivity.
Defined.

(** C8 on a call with the classification head and multiplier one half. *)
Lemma C8_learning_rate_multipliers_witness :
  py_in (PyStr "imagenet") [PyStr "imagenet"; PyNone] = true /\
  exists tr m,
    run (VGG19 tf_theano keras_cache true (PyStr "imagenet") None half) =
      (tr, inr m) /\
    (forall l w b,
       In l (layers m) -> lr_multipliers l = Some (w, b) ->
       w = half /\ b = half) /\
    length (filter is_conv (layers m)) = 16%nat /\
    length (filter is_dense (layers m)) = 3%nat.
Proof.
  split; [reflexivity | ].
  apply (C8_learning_rate_multipliers Q tf_theano keras_cache true
           (PyStr "imagenet") None half).
  reflexivity.
Defined.

Arguments layer_name {scalar} l.
Arguments is_layer_call {scalar} e.
Arguments is_new_model {scalar} e.
Arguments layer_calls {scalar} log.
Arguments LayerCall {scalar} l.

(** ** The further properties on concrete calls *)

(** X1 on the caller's object 3, which the configuration does not take for
    a Keras tensor. *)
Lemma X1_input_tensor_wrapped_witness :
  py_in PyNone [PyStr "imagenet"; PyNone] = true /\
  is_keras_tensor tf_tensorflow 3 = false /\
  exists tr m,
    run (VGG19 tf_tensorflow keras_cache true PyNone (Some 3%nat) half) =
      (tr, inr m) /\
    filter is_new_input tr = [NewInput (m_input m)] /\
    m_input m = Input_ (Some 3%nat) [Some 224; Some 224; Some 3] /\
    entry (m_output m) = m_input m.
Proof.
  split; [reflexivity | split; [reflexivity | ]].
  apply (X1_input_tensor_wrapped Q tf_tensorflow keras_cache true PyNone
           3%nat half); reflexivity.
Defined.

(** X2 on a tf-ordering file with the tensorflow backend. *)
Lemma X2_no_mismatch_no_conversion_witness :
  (image_dim_ordering tf_tensorflow = "th" ->
   backend tf_tensorflow <> "tensorflow") /\
  (image_dim_ordering tf_tensorflow <> "th" ->
   backend tf_tensorflow <> "theano") /\
  exists tr m path,
    run (VGG19 tf_tensorflow keras_cache true (PyStr "imagenet") None half) =
      (tr, inr m) /\
    filter is_load_weights tr = [LoadWeights path] /\
    count is_warn tr = 0%nat /\
    count is_convert tr = 0%nat /\
    m_weights m = Loaded path.
Proof.
  assert (Hth : image_dim_ordering tf_tensorflow = "th" ->
                backend tf_tensorflow <> "tensorflow")
    by (intros E; discriminate E).
  assert (Htf : image_dim_ordering tf_tensorflow <> "th" ->
                backend tf_tensorflow <> "theano")
    by (intros _ E; discriminate E).
  split; [exact Hth | split; [exact Htf | ]].
  exact (X2_no_mismatch_no_conversion Q tf_tensorflow keras_cache true None
           half Hth Htf).
Defined.

(** X4 on a headless call without weights and a pretrained call with the
    head. *)
Lemma X4_head_appended_witness :
  py_in PyNone [PyStr "imagenet"; PyNone] = true /\
  py_in (PyStr "imagenet") [PyStr "imagenet"; PyNone] = true /\
  exists tr m tr' m',
    run (VGG19 tf_theano keras_cache false PyNone (Some 4%nat) half) =
      (tr, inr m) /\
    run (VGG19 tf_theano keras_cache true (PyStr "imagenet") None half) =
      (tr', inr m') /\
    layers m' =
      (layers m ++
       [Flatten "flatten";
        Dense Q 4096 "relu" "fc1" half half;
        Dense Q 4096 "relu" "fc2" half half;
        Dense Q 1000 "softmax" "predictions" half half])%list.
Proof.
  split; [reflexivity | split; [reflexivity | ]].
  apply (X4_head_appended Q tf_theano keras_cache PyNone (PyStr "imagenet")
           (Some 4%nat) None half); reflexivity.
Defined.

(** X5 on a headless call. *)
Lemma X5_layer_arguments_witness :
  py_in PyNone [PyStr "imagenet"; PyNone] = true /\
  exists tr m,
    run (VGG19 th_tensorflow keras_cache false PyNone None half) =
      (tr, inr m) /\
    Forall (fun l =>
              match l with
              | Convolution2D _ _ r c act bm _ _ _ =>
                  r = 3 /\ c = 3 /\ act = "relu" /\ bm = "same"
              | MaxPooling2D ps st _ => ps = (2, 2) /\ st = (2, 2)
              | _ => True
              end) (layers m) /\
    length (filter is_pool (layers m)) = 5%nat /\
    length (layers m) = 21%nat /\
    NoDup (map layer_name (layers m)).
Proof.
  split; [reflexivity | ].
  apply (X5_layer_arguments Q th_tensorflow keras_cache false PyNone None
           half).
  reflexivity.
Defined.

(** X6 on the default call. *)
Lemma X6_calls_and_model_witness :
  py_in (PyStr "imagenet") [PyStr "imagenet"; PyNone] = true /\
  exists tr m,
    run (VGG19 tf_tensorflow keras_cache true (PyStr "imagenet") None half) =
      (tr, inr m) /\
    layer_calls tr = layers m /\
    filter (fun e => is_layer_call e || is_new_model e)%bool tr =
      (map LayerCall (layers m) ++
       [NewModel {| m_input := m_input m; m_output := m_output m;
                    m_weights := RandomInit |}])%list /\
    entry (m_output m) = m_input m.
Proof.
  split; [reflexivity | ].
  apply (X6_calls_and_model Q tf_tensorflow keras_cache true
           (PyStr "imagenet") None half).
  reflexivity.
Defined.

(** X8 on the default call. *)
Lemma X8_layer_names_witness :
  py_in (PyStr "imagenet") [PyStr "imagenet"; PyNone] = true /\
  exists tr m,
    run (VGG19 tf_tensorflow keras_cache true (PyStr "imagenet") None half) =
      (tr, inr m) /\
    map (map layer_name) (fst (stages (layers m))) =
      [block_names 1 2; block_names 2 2; block_names 3 4;
       block_names 4 4; block_names 5 4].
Proof.
  split; [reflexivity | ].
  apply (X8_layer_names Q tf_tensorflow keras_cache true (PyStr "imagenet")
           None half).
  reflexivity.
Defined.
